(** * Skincare assistant (app.py): scoring engine, routine builder,
      credential manager and gamification state machine.

    A shallow embedding of the rule-carrying parts of [app.py] and the
    properties its specification states about them.

    Modelling conventions.
    - Python [float] arithmetic is idealised as exact rational arithmetic on
      [Q]; a decimal literal such as [0.4] is the rational [4/10]. Module
      [F64] evaluates the scoring formulas on binary64 floats instead, for
      the statements on which the rounding of float arithmetic bears.
    - Python [int(x)] on a float is truncation toward zero ([py_int]);
      [a // b] on ints is floor division ([Z.div]).
    - A Python dict with optional keys is a record of [option] fields; a dict
      used as a map is a [gmap].
    - A calendar date is its day number ([Z]); [date.isoformat()] is injective,
      so the ISO string keys of [daily_completion] are replaced by day numbers;
      [today - timedelta(days=i)] is [today - i].
    - The step keys [f'morning_{i}'] and [f'evening_{i}'] are replaced by the
      index [i] they are built from.
    - The two module-level tables [USERS] and [DATA] and the two JSON files
      they are written to are components of an explicit [State]. *)

From Stdlib Require Import ZArith QArith Qabs String List Lia.
From Stdlib Require Import Floats.PrimFloat Floats.FloatOps Floats.SpecFloat Uint63.
From stdpp Require Import gmap strings list pretty.

Local Open Scope Z_scope.

(** ** Exceptions *)

Inductive exn : Type :=
| ImageError          (* raised by [Image.open] / [convert] *)
| ZeroDivisionError
| KeyError.

(** ** Python numeric helpers *)

(** [int(x)] for a float [x]: truncation toward zero. *)
Definition py_int (x : Q) : Z := Z.quot (Qnum x) (Z.pos (Qden x)).

Definition Qlt_bool (x y : Q) : bool := negb (Qle_bool y x).

(** ** Data model of the scoring engine *)

Record LifestyleFactors : Type := {
  sleep_hours : Z;
  water_intake : Q;
  stress_level : Z;
  diet_quality : Z
}.

Record Onboarding : Type := {
  full_name : string;
  age : Z;
  location : string;
  primary_concerns : list string;
  skin_type : string;
  preferred_language : string;
  onboarding_timestamp : string
}.

(** What the [try] block of [pseudo_analyze_image] sees of the uploaded file.
    [Undecodable]: a call of the imaging library in the block raises.
    [Decoded]: the library calls of the block complete, yielding a width, a
    height and, per band, the value of [sum(c)]. Which files fall under which
    case is the imaging library's business and is not modelled; where its
    band objects cannot be iterated, as with Pillow, [sum(c)] itself raises
    and every file falls under [Undecodable]. *)
Inductive Upload : Type :=
| Undecodable
| Decoded (width height : Z) (sum_r sum_g sum_b : Z).

Record ImageFeatures : Type := {
  avg_brightness : Q;
  contrast_heuristic : Q;
  redness_factor : Q
}.

Record Recommendations : Type := {
  product_categories : list string;
  lifestyle_actions : string
}.

Record AnalysisResult : Type := {
  timestamp : string;
  image_features : Q * Q;          (* avg_brightness, redness_factor *)
  lifestyle_factors : LifestyleFactors;
  detected_skin_type : string;
  current_score : Z;
  future_score_proj_7 : Z;
  future_score_proj_30 : Z;
  future_score_proj_90 : Z;
  explanation : string;
  hydration_score : Z;
  acne_risk_pct : Z;
  pigmentation_risk_pct : Z;
  pore_visibility_estimate : string;
  sleep_impact_pct : Z;
  stress_impact_pct : Z;
  recommendations : Recommendations;
  routine_morning : list string;
  routine_evening : list string
}.

(** ** Scoring engine: [pseudo_analyze_image] *)

(** [x in l] for a list of strings. *)
Definition str_in (x : string) (l : list string) : bool :=
  bool_decide (x ∈ l).

(** The body of the [try] block: image feature extraction. *)
Definition extract_features (uploaded_file : Upload) : exn + ImageFeatures :=
  match uploaded_file with
  | Undecodable => inl ImageError
  | Decoded width height sum_r sum_g sum_b =>
      if width * height =? 0 then inl ZeroDivisionError
      else
        let px := inject_Z (width * height) in
        let r := (inject_Z sum_r / px)%Q in
        let g := (inject_Z sum_g / px)%Q in
        let b := (inject_Z sum_b / px)%Q in
        let avg := ((r + g + b) / 3)%Q in
        let contrast :=
          if Qlt_bool avg 100 || Qlt_bool 200 avg then 0.5%Q else 1.0%Q in
        let redness :=
          if Qlt_bool (g * 1.1) r && Qlt_bool (b * 1.1) r then 1.2%Q else 1.0%Q in
        inr {| avg_brightness := avg;
               contrast_heuristic := contrast;
               redness_factor := redness |}
  end.

(** The [except Exception] branch. *)
Definition fallback_features : ImageFeatures :=
  {| avg_brightness := 150; contrast_heuristic := 1.0; redness_factor := 1.0 |}.

Definition image_features_of (uploaded_file : Upload) : ImageFeatures :=
  match extract_features uploaded_file with
  | inr f => f
  | inl _ => fallback_features
  end.

Definition morning_base : list string :=
  ["Cleanse: Gentle Hydrating Cleanser"; "Treat: Vitamin C Serum";
   "Protect: SPF 30+ Sunscreen"]%string.

Definition evening_base : list string :=
  ["Cleanse: Double Cleanse (Oil + Foam)"; "Treat: Niacinamide Serum";
   "Moisturize: Barrier Repair Cream"]%string.

Definition bha_step : string := "Treat: Salicylic Acid (BHA) Serum".
Definition retinoid_step : string := "Treat: Retinoid Cream (3x/week)".

Local Open Scope Q_scope.

(** The float-valued intermediate variables of [pseudo_analyze_image]. *)
Definition sleep_score (lf : LifestyleFactors) : Q :=
  (inject_Z (sleep_hours lf) - 5) / 5.
Definition water_score (lf : LifestyleFactors) : Q :=
  water_intake lf / 4.
Definition stress_score (lf : LifestyleFactors) : Q :=
  (10 - inject_Z (stress_level lf)) / 10.
Definition diet_score (lf : LifestyleFactors) : Q :=
  inject_Z (diet_quality lf) / 5.

Definition base_image_score (f : ImageFeatures) : Q :=
  (avg_brightness f / 255.0) * 0.4 + (1.0 - contrast_heuristic f) * 0.2.

Definition lifestyle_impact_score (lf : LifestyleFactors) : Q :=
  sleep_score lf * 0.25 + water_score lf * 0.25 + stress_score lf * 0.35
  + diet_score lf * 0.15.

(** The argument of [int(...)] in the first assignment to [current_score]. *)
Definition score_raw (f : ImageFeatures) (lf : LifestyleFactors) : Q :=
  (base_image_score f * 0.4 + lifestyle_impact_score lf * 0.6) * 100
  * (1 / redness_factor f).

(** Steps 2 to the end of [pseudo_analyze_image], from the image features. *)
Definition analyze_features (now : string) (f : ImageFeatures)
    (lifestyle_factors : LifestyleFactors) (ob : Onboarding) : AnalysisResult :=
  let avg_brightness := avg_brightness f in
  let redness_factor := redness_factor f in
  (* 2. lifestyle factor integration *)
  let sleep_score := sleep_score lifestyle_factors in
  let water_score := water_score lifestyle_factors in
  let stress_score := stress_score lifestyle_factors in
  let diet_score := diet_score lifestyle_factors in
  (* 3. deterministic scoring logic *)
  let base_image_score := base_image_score f in
  let lifestyle_impact_score := lifestyle_impact_score lifestyle_factors in
  let current_score := py_int (score_raw f lifestyle_factors) in
  let current_score := Z.max 50 (Z.min 95 current_score) in
  (* 4. detailed breakdown *)
  let hydration_score :=
    py_int ((water_score * 0.6 + avg_brightness / 255 * 0.4) * 100)%Q in
  let hydration_score := Z.max 50 (Z.min 99 hydration_score) in
  let onboard_skin_type := skin_type ob in
  let base_risk := (50 - inject_Z current_score / 2)%Q in
  let base_risk :=
    if str_in onboard_skin_type ["Oily"; "Combination"]%string
    then (base_risk + 10)%Q else base_risk in
  let acne_risk_pct :=
    py_int (base_risk + (1 - stress_score) * 15 + (1 - diet_score) * 10)%Q in
  let acne_risk_pct := Z.min 90 (Z.max 10 acne_risk_pct) in
  let pigmentation_risk_pct :=
    py_int (20 + (1 - base_image_score) * 15 + (1 - water_score) * 10)%Q in
  let pigmentation_risk_pct := Z.min 70 (Z.max 5 pigmentation_risk_pct) in
  let future_delta := py_int ((lifestyle_impact_score - 0.5) * 20)%Q in
  let proj_7 := Z.min 100 (current_score + Z.max 0 (future_delta / 3)) in
  let proj_30 := Z.min 100 (current_score + Z.max 0 future_delta) in
  let proj_90 := Z.min 100 (current_score + Z.max 0 (future_delta * 2)) in
  let explanation :=
    ("Your score is **" +:+ pretty current_score
     +:+ "**. The image analysis detected a fair quality skin base, but a higher **"
     +:+ pretty (py_int (avg_brightness / 255 * 100)%Q)
     +:+ "% average brightness** which can be a sign of mild dryness/redness. The most significant factor impacting your score is your **Stress Level** (contributing "
     +:+ pretty (py_int ((1 - stress_score) * 100)%Q)
     +:+ "% to the negative impact). Improvements in sleep and stress management are projected to increase your score significantly in 90 days.")%string in
  (* personalised routine *)
  let morning_routine := morning_base in
  let evening_routine := evening_base in
  let evening_routine :=
    if str_in "Acne" (primary_concerns ob) || (50 <? acne_risk_pct)
    then <[1%nat := bha_step]> evening_routine else evening_routine in
  let evening_routine :=
    if str_in "Wrinkles" (primary_concerns ob)
    then evening_routine ++ [retinoid_step] else evening_routine in
  {| timestamp := now;
     image_features := (avg_brightness, redness_factor);
     lifestyle_factors := lifestyle_factors;
     detected_skin_type := onboard_skin_type;
     current_score := current_score;
     future_score_proj_7 := proj_7;
     future_score_proj_30 := proj_30;
     future_score_proj_90 := proj_90;
     explanation := explanation;
     hydration_score := hydration_score;
     acne_risk_pct := acne_risk_pct;
     pigmentation_risk_pct := pigmentation_risk_pct;
     pore_visibility_estimate :=
       if str_in onboard_skin_type ["Oily"; "Combination"]%string
          || (50 <? acne_risk_pct)
       then "High"%string else "Low"%string;
     sleep_impact_pct := py_int ((1 - sleep_score) * 100)%Q;
     stress_impact_pct := py_int ((1 - stress_score) * 100)%Q;
     recommendations :=
       {| product_categories :=
            ["Hyaluronic Acid Serums"; "Ceramide Moisturizers";
             "Broad Spectrum Sunscreens"]%string;
          lifestyle_actions :=
            "Focus on **Stress Reduction** (daily 10 min meditation). Increase **Water Intake** to 3L/day. Target 8 hours of sleep." |};
     routine_morning := morning_routine;
     routine_evening := evening_routine |}.

Local Close Scope Q_scope.

(** ** The same scoring in IEEE binary64

    [analyze_features] computes with exact rationals, which is adequate
    wherever the rounding of float arithmetic does not bear (the clamps, the
    routine, the stored state). Where it does bear, namely on what [int(...)]
    returns when a formula's real value is an integer, the body is evaluated
    here as the interpreter evaluates it: on binary64 floats, operation by
    operation, in the source's order. *)

Module F64.

#[local] Set Warnings "-inexact-float".
Local Open Scope float_scope.

(** A Python [int] used in float arithmetic (exact below 2^53). *)
Definition of_int (z : Z) : float :=
  if (z <? 0)%Z then - of_uint63 (Uint63.of_Z (- z)) else of_uint63 (Uint63.of_Z z).

(** [int(x)] for a float: truncation toward zero; [None] where Python raises
    ([ValueError] for nan, [OverflowError] for an infinity). *)
Definition to_int (x : float) : option Z :=
  match Prim2SF x with
  | S754_zero _ => Some 0%Z
  | S754_finite s m e =>
      let a := (if 0 <=? e then Z.pos m * 2 ^ e else Z.pos m / 2 ^ (- e))%Z in
      Some (if s then (- a)%Z else a)
  | S754_infinity _ | S754_nan => None
  end.

(** The rational a float stands for (0 for nan and the infinities). *)
Definition value (x : float) : Q :=
  match Prim2SF x with
  | S754_finite s m e =>
      let q := if (0 <=? e)%Z then inject_Z (Z.pos m * 2 ^ e)
               else Qmake (Z.pos m) (Z.to_pos (2 ^ (- e))) in
      if s then (- q)%Q else q
  | _ => 0%Q
  end.

Record Features : Type := {
  avg_brightness : float;
  contrast_heuristic : float;
  redness_factor : float
}.

Record Lifestyle : Type := {
  sleep_hours : Z;
  water_intake : float;
  stress_level : Z;
  diet_quality : Z
}.

(** The [except Exception] branch: [avg_brightness = 150] (an [int]),
    [contrast_heuristic = 1.0], [redness_factor = 1.0]. *)
Definition fallback_features : Features :=
  {| avg_brightness := of_int 150; contrast_heuristic := 1.0; redness_factor := 1.0 |}.

(** The integer-valued locals of [pseudo_analyze_image]. *)
Record Scores : Type := {
  raw_score : Z;             (* [current_score] before the clamp *)
  current_score : Z;
  raw_hydration : Z;
  hydration_score : Z;
  raw_acne : Z;
  acne_risk_pct : Z;
  raw_pigmentation : Z;
  pigmentation_risk_pct : Z;
  future_delta : Z;
  proj_7 : Z;
  proj_30 : Z;
  proj_90 : Z;
  brightness_pct : Z;        (* [int(avg_brightness/255 * 100)] of the explanation *)
  sleep_impact_pct : Z;
  stress_impact_pct : Z
}.

(** Lines 631-676 and 710-711; [oily] is
    [onboard_skin_type in ['Oily', 'Combination']]. *)
Definition scores (f : Features) (lf : Lifestyle) (oily : bool) : option Scores :=
  let avg_brightness := avg_brightness f in
  let contrast_heuristic := contrast_heuristic f in
  let redness_factor := redness_factor f in
  let sleep_score := of_int (sleep_hours lf - 5) / of_int 5 in
  let water_score := water_intake lf / of_int 4 in
  let stress_score := of_int (10 - stress_level lf) / of_int 10 in
  let diet_score := of_int (diet_quality lf) / of_int 5 in
  let base_image_score :=
    (avg_brightness / 255.0) * 0.4 + (1.0 - contrast_heuristic) * 0.2 in
  let lifestyle_impact_score :=
    sleep_score * 0.25 + water_score * 0.25 + stress_score * 0.35
    + diet_score * 0.15 in
  raw_score ← to_int ((base_image_score * 0.4 + lifestyle_impact_score * 0.6)
                       * of_int 100 * (of_int 1 / redness_factor));
  let current_score := Z.max 50 (Z.min 95 raw_score) in
  raw_hydration ← to_int ((water_score * 0.6 + avg_brightness / of_int 255 * 0.4)
                          * of_int 100);
  let hydration_score := Z.max 50 (Z.min 99 raw_hydration) in
  let base_risk := of_int 50 - (of_int current_score / of_int 2) in
  let base_risk := if oily then base_risk + of_int 10 else base_risk in
  raw_acne ← to_int (base_risk + (of_int 1 - stress_score) * of_int 15
                     + (of_int 1 - diet_score) * of_int 10);
  let acne_risk_pct := Z.min 90 (Z.max 10 raw_acne) in
  raw_pigmentation ← to_int (of_int 20 + (of_int 1 - base_image_score) * of_int 15
                             + (of_int 1 - water_score) * of_int 10);
  let pigmentation_risk_pct := Z.min 70 (Z.max 5 raw_pigmentation) in
  future_delta ← to_int ((lifestyle_impact_score - 0.5) * of_int 20);
  let proj_7 := Z.min 100 (current_score + Z.max 0 (future_delta `div` 3))%Z in
  let proj_30 := Z.min 100 (current_score + Z.max 0 future_delta)%Z in
  let proj_90 := Z.min 100 (current_score + Z.max 0 (future_delta * 2))%Z in
  brightness_pct ← to_int (avg_brightness / of_int 255 * of_int 100);
  sleep_impact_pct ← to_int ((of_int 1 - sleep_score) * of_int 100);
  stress_impact_pct ← to_int ((of_int 1 - stress_score) * of_int 100);
  Some {| raw_score := raw_score; current_score := current_score;
          raw_hydration := raw_hydration; hydration_score := hydration_score;
          raw_acne := raw_acne; acne_risk_pct := acne_risk_pct;
          raw_pigmentation := raw_pigmentation;
          pigmentation_risk_pct := pigmentation_risk_pct;
          future_delta := future_delta;
          proj_7 := proj_7; proj_30 := proj_30; proj_90 := proj_90;
          brightness_pct := brightness_pct;
          sleep_impact_pct := sleep_impact_pct;
          stress_impact_pct := stress_impact_pct |}.

(** The sliders of [skin_analyzer_page]: whole hours, half litres ([k] halves),
    whole stress and diet levels. *)
Definition sliders (sleep k stress diet : Z) : Lifestyle :=
  {| sleep_hours := sleep; water_intake := of_int k / of_int 2;
     stress_level := stress; diet_quality := diet |}.

End F64.

(** ** Persisted per-user state *)

(** One entry of [daily_completion]: a dict whose keys are written by two
    different pages, so every key may be absent. *)
Record DailyRecord : Type := {
  morning : option (gmap nat bool);
  evening : option (gmap nat bool);
  is_complete : option bool;
  points_awarded : option Z;
  checker : option (gmap string bool);
  checker_points_awarded : option Z
}.

(** The per-user blob of [DATA]. [onboarding] is [None] for the empty dict.
    The keys [routine], [kit], [forum_posts] and [expert_requests] are not
    read or written by the functions embedded here and are left out. *)
Record UserData : Type := {
  onboarding : option Onboarding;
  analysis_history : list AnalysisResult;
  points : Z;
  daily_completion : gmap Z DailyRecord
}.

Record Credential : Type := {
  password : string;
  salt : string
}.

(** The process state: the two global tables, the two files they are dumped
    to, and the session entries the login form writes. *)
Record State : Type := {
  USERS : gmap string Credential;
  DATA : gmap string UserData;
  users_json : gmap string Credential;
  data_json : gmap string UserData;
  logged_in_user : option string;
  page : option string
}.

Definition pseudo_analyze_image (now : string) (uploaded_file : Upload)
    (lifestyle_factors : LifestyleFactors) (user_data : UserData)
  : exn + AnalysisResult :=
  let f := image_features_of uploaded_file in
  match onboarding user_data with
  | None => inl KeyError            (* user_data['onboarding']['skin_type'] *)
  | Some ob => inr (analyze_features now f lifestyle_factors ob)
  end.

(** ** Record store helpers *)

Definition set_DATA (d : gmap string UserData) (st : State) : State :=
  {| USERS := USERS st; DATA := d; users_json := users_json st;
     data_json := data_json st; logged_in_user := logged_in_user st;
     page := page st |}.

(** [save_data(DATA_FILE, DATA)]: whole-table overwrite of the file. *)
Definition save_DATA (st : State) : State :=
  {| USERS := USERS st; DATA := DATA st; users_json := users_json st;
     data_json := DATA st; logged_in_user := logged_in_user st;
     page := page st |}.

(** [save_data(USERS_FILE, USERS)]. *)
Definition save_USERS (st : State) : State :=
  {| USERS := USERS st; DATA := DATA st; users_json := USERS st;
     data_json := data_json st; logged_in_user := logged_in_user st;
     page := page st |}.

Definition default_user_data : UserData :=
  {| onboarding := None; analysis_history := []; points := 0;
     daily_completion := ∅ |}.

Definition get_user_data (username : string) (st : State) : State * UserData :=
  match DATA st !! username with
  | Some ud => (st, ud)
  | None =>
      (save_DATA (set_DATA (<[username := default_user_data]> (DATA st)) st),
       default_user_data)
  end.

Definition add_points (n : Z) (ud : UserData) : UserData :=
  {| onboarding := onboarding ud; analysis_history := analysis_history ud;
     points := points ud + n; daily_completion := daily_completion ud |}.

(** [DATA[username]] raises [KeyError] for an unknown user. *)
Definition update_user_points (username : string) (n : Z) (st : State)
  : exn + State :=
  match DATA st !! username with
  | None => inl KeyError
  | Some ud => inr (save_DATA (set_DATA (<[username := add_points n ud]> (DATA st)) st))
  end.

(** [user_data['daily_completion'][today_str] = d] on the aliased blob. *)
Definition set_daily (today : Z) (d : DailyRecord) (ud : UserData) : UserData :=
  {| onboarding := onboarding ud; analysis_history := analysis_history ud;
     points := points ud; daily_completion := <[today := d]> (daily_completion ud) |}.

Definition store_daily (username : string) (today : Z) (d : DailyRecord)
    (st : State) : State :=
  set_DATA (alter (set_daily today d) username (DATA st)) st.

(** ** Credential manager *)

(** [hashlib.sha256(s.encode('utf-8')).hexdigest()], kept abstract. *)
Class Sha256 : Type := sha256_hexdigest : string → string.

Section Credentials.
Context `{Sha256}.

(** [uuid_hex] is the value [uuid.uuid4().hex] would return. *)
Definition hash_password (pw : string) (salt : option string) (uuid_hex : string)
  : string * string :=
  let salt := match salt with None => uuid_hex | Some s => s end in
  (sha256_hexdigest (pw +:+ salt), salt).

Definition check_password (hashed_password pw salt : string) : bool :=
  bool_decide (hashed_password = sha256_hexdigest (pw +:+ salt)).

End Credentials.

Inductive RegisterOutcome : Type :=
| UserExists            (* st.error(get_i18n('user_exists')) *)
| EmptyField            (* "Username and password cannot be empty." *)
| RegSuccess.

Inductive LoginOutcome : Type :=
| LoginSuccess
| InvalidCred.

Definition set_USERS (u : gmap string Credential) (st : State) : State :=
  {| USERS := u; DATA := DATA st; users_json := users_json st;
     data_json := data_json st; logged_in_user := logged_in_user st;
     page := page st |}.

Definition set_session (u : option string) (p : option string) (st : State) : State :=
  {| USERS := USERS st; DATA := DATA st; users_json := users_json st;
     data_json := data_json st; logged_in_user := u; page := p |}.

Definition py_not (s : string) : bool := bool_decide (s = ""%string).

(** The [register_submitted] branch of [login_register_page]. *)
Definition register `{Sha256} (new_username new_password uuid_hex : string)
    (st : State) : State * RegisterOutcome :=
  match USERS st !! new_username with
  | Some _ => (st, UserExists)
  | None =>
      if py_not new_username || py_not new_password then (st, EmptyField)
      else
        let '(hashed_pass, salt) := hash_password new_password None uuid_hex in
        let st := set_USERS (<[new_username :=
                     {| password := hashed_pass; salt := salt |}]> (USERS st)) st in
        let st := save_USERS st in
        let '(st, _) := get_user_data new_username st in
        (st, RegSuccess)
  end.

(** The [login_submitted] branch of [login_register_page]. *)
Definition login `{Sha256} (username pw : string) (st : State)
  : State * LoginOutcome :=
  match USERS st !! username with
  | Some user_record =>
      if check_password (password user_record) pw (salt user_record)
      then (set_session (Some username) (Some "Dashboard"%string) st, LoginSuccess)
      else (st, InvalidCred)
  | None => (st, InvalidCred)
  end.

(** ** Gamification: [my_routine_page] *)

Inductive RoutineOutcome : Type :=
| NoAnalysis                 (* warning, early return *)
| Raised (e : exn)
| Rendered                   (* button not pressed *)
| Awarded (n : Z)            (* good_job, +n points *)
| MoreWork                   (* finalized incomplete, no points *)
| AlreadyFinalized.          (* "You have already finalized ..." *)

(** One checkbox loop: [for i, step in enumerate(steps)], writing
    [states[step_key]] and counting the ticked boxes. *)
Definition checkbox_loop (steps : list string) (ticked : nat → bool)
    (states : gmap nat bool) : gmap nat bool * Z :=
  foldl (λ '(m, completed) i,
           if ticked i then (<[i := true]> m, completed + 1)
           else (<[i := false]> m, completed))
        (states, 0) (seq 0 (length steps)).

Definition set_morning (m : gmap nat bool) (d : DailyRecord) : DailyRecord :=
  {| morning := Some m; evening := evening d; is_complete := is_complete d;
     points_awarded := points_awarded d; checker := checker d;
     checker_points_awarded := checker_points_awarded d |}.

Definition set_evening (m : gmap nat bool) (d : DailyRecord) : DailyRecord :=
  {| morning := morning d; evening := Some m; is_complete := is_complete d;
     points_awarded := points_awarded d; checker := checker d;
     checker_points_awarded := checker_points_awarded d |}.

(** [daily_completion] is the stored dict itself when the date has an entry
    (so the checkbox loops write into [DATA] in memory), and a fresh dict
    otherwise: [sync] writes the local dict back only in the first case. *)
Definition sync (aliased : bool) (username : string) (today : Z)
    (d : DailyRecord) (st : State) : State :=
  if aliased then store_daily username today d st else st.

Definition my_routine_page (username : string) (today : Z)
    (morning_ticked evening_ticked : nat → bool) (clicked : bool) (st : State)
  : State * RoutineOutcome :=
  let '(st, user_data) := get_user_data username st in
  match last (analysis_history user_data) with
  | None => (st, NoAnalysis)
  | Some last_analysis =>
      let current_morning := routine_morning last_analysis in
      let current_evening := routine_evening last_analysis in
      let stored := daily_completion user_data !! today in
      let aliased := bool_decide (is_Some stored) in
      let daily :=
        default {| morning := Some ∅; evening := Some ∅; is_complete := None;
                   points_awarded := None; checker := None;
                   checker_points_awarded := None |} stored in
      let total_morning := Z.of_nat (length current_morning) in
      let total_evening := Z.of_nat (length current_evening) in
      (* morning loop, then st.progress(morning_completed / total_morning) *)
      match (if total_morning =? 0 then inl ZeroDivisionError
             else match morning daily with
                  | None => inl KeyError
                  | Some m => inr (checkbox_loop current_morning morning_ticked m)
                  end) with
      | inl e => (st, Raised e)
      | inr (m, morning_completed) =>
          let daily := set_morning m daily in
          let st := sync aliased username today daily st in
          (* evening loop, then st.progress(evening_completed / total_evening) *)
          match (if total_evening =? 0 then inl ZeroDivisionError
                 else match evening daily with
                      | None => inl KeyError
                      | Some m => inr (checkbox_loop current_evening evening_ticked m)
                      end) with
          | inl e => (st, Raised e)
          | inr (e, evening_completed) =>
              let daily := set_evening e daily in
              let st := sync aliased username today daily st in
              let total_steps := total_morning + total_evening in
              let total_completed := morning_completed + evening_completed in
              let is_complete_today := total_completed =? total_steps in
              if clicked then
                (* only award points once per day *)
                if negb (default false (stored ≫= is_complete)) then
                  let points_to_award := if is_complete_today then 5 else 0 in
                  let st := store_daily username today
                              {| morning := morning daily; evening := evening daily;
                                 is_complete := Some is_complete_today;
                                 points_awarded := Some points_to_award;
                                 checker := None;
                                 checker_points_awarded := None |} st in
                  if 0 <? points_to_award then
                    match update_user_points username points_to_award st with
                    | inl e => (st, Raised e)
                    | inr st => (save_DATA st, Awarded points_to_award)
                    end
                  else (save_DATA st, MoreWork)
                else (st, AlreadyFinalized)
              else (st, Rendered)
          end
      end
  end.

(** ** Gamification: [daily_routine_ai_checker_page] *)

Definition tasks : list string :=
  ["AM_1"; "AM_2"; "AM_3"; "AM_4"; "AM_5";
   "PM_1"; "PM_2"; "PM_3"; "PM_4"; "PM_5";
   "LIFE_1"; "LIFE_2"; "LIFE_3"; "LIFE_4"; "LIFE_5"]%string.

Definition starts_with (p s : string) : bool := String.prefix p s.

Definition bool_to_Z (b : bool) : Z := if b then 1 else 0.

(** [sum(current_checker.values())]. *)
Definition sum_values (c : gmap string bool) : Z :=
  map_fold (λ _ b acc, acc + bool_to_Z b) 0 c.

Inductive CheckerOutcome : Type :=
| CheckerRaised (e : exn)
| CheckerRendered
| CheckerAwarded (new_points : Z)
| CheckerSaved               (* "Checker progress saved. No new points awarded." *)
| CheckerNoChange.           (* "No new points earned since the last check." *)

(** What the page shows and does: the progress line displays
    [completed_tasks]. *)
Record CheckerView : Type := {
  completed_tasks : Z;
  checker_outcome : CheckerOutcome
}.

Definition set_checker (c : gmap string bool) (d : DailyRecord) : DailyRecord :=
  {| morning := morning d; evening := evening d; is_complete := is_complete d;
     points_awarded := points_awarded d; checker := Some c;
     checker_points_awarded := checker_points_awarded d |}.

Definition set_checker_points_awarded (n : Z) (d : DailyRecord) : DailyRecord :=
  {| morning := morning d; evening := evening d; is_complete := is_complete d;
     points_awarded := points_awarded d; checker := checker d;
     checker_points_awarded := Some n |}.

(** The three checkbox loops (AM, PM, LIFE keys in turn). *)
Definition tick_tasks (ticked : string → bool) (c : gmap string bool)
  : gmap string bool :=
  let run prefix c :=
    foldl (λ c k, <[k := ticked k]> c) c (filter (λ k, starts_with prefix k = true) tasks) in
  run "LIFE"%string (run "PM"%string (run "AM"%string c)).

Definition daily_routine_ai_checker_page (username : string) (today : Z)
    (ticked : string → bool) (clicked : bool) (st : State)
  : State * CheckerView :=
  let '(st, user_data) := get_user_data username st in
  let stored := daily_completion user_data !! today in
  let daily :=
    default {| morning := None; evening := None; is_complete := None;
               points_awarded := None; checker := Some ∅;
               checker_points_awarded := None |} stored in
  (* current_checker is the stored dict when the entry has one *)
  let attached := bool_decide (is_Some (checker daily)) in
  let current_checker := tick_tasks ticked (default ∅ (checker daily)) in
  let daily := if attached then set_checker current_checker daily else daily in
  let st := sync (bool_decide (is_Some stored)) username today daily st in
  let completed := sum_values current_checker in
  let current_score := completed * 5 in
  if clicked then
    let already_awarded := default 0 (checker_points_awarded daily) in
    let new_points := current_score - already_awarded in
    if 0 <? new_points then
      match update_user_points username new_points st with
      | inl e => (st, {| completed_tasks := completed; checker_outcome := CheckerRaised e |})
      | inr st =>
          let daily := set_checker_points_awarded current_score
                         (set_checker current_checker daily) in
          (save_DATA (store_daily username today daily st),
           {| completed_tasks := completed;
              checker_outcome := CheckerAwarded new_points |})
      end
    else if new_points <? 0 then
      let daily := set_checker current_checker daily in
      (save_DATA (store_daily username today daily st),
       {| completed_tasks := completed; checker_outcome := CheckerSaved |})
    else (st, {| completed_tasks := completed; checker_outcome := CheckerNoChange |})
  else (st, {| completed_tasks := completed; checker_outcome := CheckerRendered |}).

(** ** Streak: the computation in [dashboard_page] *)

(** [daily_completions.get(day_str, {}).get('is_complete', False)]. *)
Definition day_complete (daily_completions : gmap Z DailyRecord) (day : Z) : bool :=
  default false (daily_completions !! day ≫= is_complete).

(** [for i in range(1, 100): ... else: break]. *)
Fixpoint streak_loop (daily_completions : gmap Z DailyRecord) (today : Z)
    (range : list Z) (streak_count : Z) : Z :=
  match range with
  | [] => streak_count
  | i :: range =>
      if day_complete daily_completions (today - i)
      then streak_loop daily_completions today range (streak_count + 1)
      else streak_count
  end.

(** [range(lo, hi)]. *)
Definition py_range (lo hi : Z) : list Z := seqZ lo (hi - lo).

Definition streak_count (user_data : UserData) (today : Z) : Z :=
  let daily_completions := daily_completion user_data in
  if day_complete daily_completions (today - 1)
  then streak_loop daily_completions today (py_range 1 100) 0
  else 0.

(** * Specification-side definitions and example data *)

(** ** The scoring formulas as the specification words them *)

Module Spec.
Local Open Scope Q_scope.

(** Brightness normalised to [0,1]. *)
Definition brightness (f : ImageFeatures) : Q := avg_brightness f / 255.

Definition sleepScore (lf : LifestyleFactors) : Q := (inject_Z (sleep_hours lf) - 5) / 5.
Definition waterScore (lf : LifestyleFactors) : Q := water_intake lf / 4.
Definition stressScore (lf : LifestyleFactors) : Q := (10 - inject_Z (stress_level lf)) / 10.
Definition dietScore (lf : LifestyleFactors) : Q := inject_Z (diet_quality lf) / 5.

Definition baseImageScore (f : ImageFeatures) : Q :=
  brightness f * 0.4 + (1 - contrast_heuristic f) * 0.2.

Definition lifestyleImpact (lf : LifestyleFactors) : Q :=
  sleepScore lf * 0.25 + waterScore lf * 0.25 + stressScore lf * 0.35 + dietScore lf * 0.15.

Definition currentScore_formula (f : ImageFeatures) (lf : LifestyleFactors) : Q :=
  (baseImageScore f * 0.4 + lifestyleImpact lf * 0.6) * 100 / redness_factor f.

Definition hydration_formula (f : ImageFeatures) (lf : LifestyleFactors) : Q :=
  (waterScore lf * 0.6 + brightness f * 0.4) * 100.

Definition oilyBonus (skinType : string) : Q :=
  if str_in skinType ["Oily"; "Combination"]%string then 10 else 0.

Definition acneRisk_formula (currentScore : Z) (skinType : string)
    (lf : LifestyleFactors) : Q :=
  (50 - inject_Z currentScore / 2) + oilyBonus skinType
  + (1 - stressScore lf) * 15 + (1 - dietScore lf) * 10.

Definition pigmentationRisk_formula (f : ImageFeatures) (lf : LifestyleFactors) : Q :=
  20 + (1 - baseImageScore f) * 15 + (1 - waterScore lf) * 10.

Definition futureDelta_formula (lf : LifestyleFactors) : Q :=
  (lifestyleImpact lf - 0.5) * 20.

Definition sleepImpact_formula (lf : LifestyleFactors) : Q := (1 - sleepScore lf) * 100.
Definition stressImpact_formula (lf : LifestyleFactors) : Q := (1 - stressScore lf) * 100.

Definition clamp (v lo hi : Z) : Z := Z.max lo (Z.min hi v).

(** [v] is a nearest integer to [x]. *)
Definition nearest (x : Q) (v : Z) : Prop := Qabs (x - inject_Z v) <= 1 # 2.

(** [v] is [x] truncated toward zero. *)
Definition truncates (x : Q) (v : Z) : Prop :=
  (0 <= x → inject_Z v <= x ∧ x < inject_Z v + 1) ∧
  (x <= 0 → inject_Z v - 1 < x ∧ x <= inject_Z v).

(** The documented input ranges of the lifestyle sliders. *)
Definition valid_lifestyle (lf : LifestyleFactors) : Prop :=
  (4 <= sleep_hours lf <= 12)%Z ∧ 0.5 <= water_intake lf ∧ water_intake lf <= 4.0 ∧
  (1 <= stress_level lf <= 10)%Z ∧ (1 <= diet_quality lf <= 5)%Z.

(** [v] is [x] truncated toward zero, or [x] is a non-zero integer and [v]
    is the next integer toward zero: what [int] returns when the float value
    of an integer-valued formula falls just short of it. *)
Definition truncates_or_short (x : Q) (v : Z) : Prop :=
  truncates x v ∨ (0 < x ∧ x == inject_Z (v + 1)) ∨ (x < 0 ∧ x == inject_Z (v - 1)).

(** The slider positions as exact numbers: whole hours, [k] half litres,
    whole stress and diet levels. *)
Definition slider_input (sleep k stress diet : Z) : LifestyleFactors :=
  {| sleep_hours := sleep; water_intake := inject_Z k / 2;
     stress_level := stress; diet_quality := diet |}.

(** The integer fields as the binary64 evaluation yields them, against the
    real-valued formulas: the four clamped scores are truncations, clamped
    afterwards; [futureDelta] and the two impact percentages are truncations
    or one short of an integer value. *)
Definition binary64_fields (f : ImageFeatures) (lf : LifestyleFactors)
    (skinType : string) (sc : F64.Scores) : Prop :=
  truncates (currentScore_formula f lf) (F64.raw_score sc) ∧
  F64.current_score sc = clamp (F64.raw_score sc) 50 95 ∧
  truncates (hydration_formula f lf) (F64.raw_hydration sc) ∧
  F64.hydration_score sc = clamp (F64.raw_hydration sc) 50 99 ∧
  truncates (acneRisk_formula (F64.current_score sc) skinType lf) (F64.raw_acne sc) ∧
  F64.acne_risk_pct sc = clamp (F64.raw_acne sc) 10 90 ∧
  truncates (pigmentationRisk_formula f lf) (F64.raw_pigmentation sc) ∧
  F64.pigmentation_risk_pct sc = clamp (F64.raw_pigmentation sc) 5 70 ∧
  truncates_or_short (futureDelta_formula lf) (F64.future_delta sc) ∧
  F64.proj_7 sc
  = Z.min 100 (F64.current_score sc + Z.max 0 (F64.future_delta sc `div` 3)) ∧
  F64.proj_30 sc = Z.min 100 (F64.current_score sc + Z.max 0 (F64.future_delta sc)) ∧
  F64.proj_90 sc
  = Z.min 100 (F64.current_score sc + Z.max 0 (F64.future_delta sc * 2)) ∧
  truncates_or_short (sleepImpact_formula lf) (F64.sleep_impact_pct sc) ∧
  truncates_or_short (stressImpact_formula lf) (F64.stress_impact_pct sc).

(** The hydration field as a nearest-integer rounding of its formula. *)
Definition hydration_rounded_to_nearest (f : ImageFeatures)
    (lf : LifestyleFactors) (r : AnalysisResult) : Prop :=
  ∃ v : Z, nearest (hydration_formula f lf) v ∧ hydration_score r = clamp v 50 99.

End Spec.

(** ** Decision procedures for the binary64 statements *)

Module Check64.

Definition truncates_b (x : Q) (v : Z) : bool :=
  (if Qle_bool 0 x
   then Qle_bool (inject_Z v) x && Qlt_bool x (inject_Z v + 1) else true)
  && (if Qle_bool x 0
      then Qlt_bool (inject_Z v - 1) x && Qle_bool x (inject_Z v) else true).

Definition truncates_or_short_b (x : Q) (v : Z) : bool :=
  truncates_b x v
  || (Qlt_bool 0 x && Qeq_bool x (inject_Z (v + 1)))
  || (Qlt_bool x 0 && Qeq_bool x (inject_Z (v - 1))).

Definition oily_name (oily : bool) : string := if oily then "Oily" else "Normal".

(** The relations of [Spec.binary64_fields] that depend on the arithmetic, at
    one slider position on the fallback features. *)
Definition fields_b (sleep k stress diet : Z) (oily : bool) : bool :=
  match F64.scores F64.fallback_features (F64.sliders sleep k stress diet) oily with
  | None => false
  | Some sc =>
      let lf := Spec.slider_input sleep k stress diet in
      truncates_b (Spec.currentScore_formula fallback_features lf) (F64.raw_score sc)
      && truncates_b (Spec.hydration_formula fallback_features lf) (F64.raw_hydration sc)
      && truncates_b (Spec.acneRisk_formula (F64.current_score sc) (oily_name oily) lf)
           (F64.raw_acne sc)
      && truncates_b (Spec.pigmentationRisk_formula fallback_features lf)
           (F64.raw_pigmentation sc)
      && truncates_or_short_b (Spec.futureDelta_formula lf) (F64.future_delta sc)
      && truncates_or_short_b (Spec.sleepImpact_formula lf) (F64.sleep_impact_pct sc)
      && truncates_or_short_b (Spec.stressImpact_formula lf) (F64.stress_impact_pct sc)
  end.

(** Every slider position: sleep 4..12, water 1..8 halves, stress 1..10,
    diet 1..5. *)
Definition all_sliders (P : Z → Z → Z → Z → bool) : bool :=
  forallb (λ s, forallb (λ k, forallb (λ st, forallb (λ d, P s k st d)
    (py_range 1 6)) (py_range 1 11)) (py_range 1 9)) (py_range 4 13).

End Check64.

(** ** Example inputs *)

(** The slider defaults: 7 h sleep, 2.0 l water, stress 5, diet 3. *)
Definition example_lifestyle : LifestyleFactors :=
  {| sleep_hours := 7; water_intake := 2.0%Q; stress_level := 5; diet_quality := 3 |}.

Definition example_onboarding : Onboarding :=
  {| full_name := "Asha"; age := 25; location := "Pune";
     primary_concerns := ["Dryness"]%string; skin_type := "Normal";
     preferred_language := "English"; onboarding_timestamp := "2024-01-01T09:00:00" |}.

Definition example_user : UserData :=
  {| onboarding := Some example_onboarding; analysis_history := []; points := 0;
     daily_completion := ∅ |}.

Definition example_wrinkles_onboarding : Onboarding :=
  {| full_name := "Meera"; age := 52; location := "Delhi";
     primary_concerns := ["Wrinkles"; "Pigmentation"]%string; skin_type := "Oily";
     preferred_language := "English"; onboarding_timestamp := "2024-01-01T10:00:00" |}.

Definition example_wrinkles_user : UserData :=
  {| onboarding := Some example_wrinkles_onboarding; analysis_history := [];
     points := 0; daily_completion := ∅ |}.

(** The state after start-up on a clean directory: both tables empty, both
    files created with [{}], nobody logged in. *)
Definition initial_state : State :=
  {| USERS := ∅; DATA := ∅; users_json := ∅; data_json := ∅;
     logged_in_user := None; page := None |}.

(** A stand-in digest, used only to evaluate examples. *)
Definition example_digest : Sha256 := λ s, ("sha256:" +:+ s)%string.

(** ** Streak and finalisation, as the specification words them *)

Module GameSpec.

(** The [n] days ending yesterday are complete and the day before them is
    not. *)
Definition run_ending_yesterday (ud : UserData) (today n : Z) : Prop :=
  (∀ k, 1 ≤ k ≤ n → day_complete (daily_completion ud) (today - k) = true) ∧
  day_complete (daily_completion ud) (today - (n + 1)) = false.

(** The user's total points; a user not yet in [DATA] has none. *)
Definition user_points (username : string) (st : State) : Z :=
  default 0 (points <$> DATA st !! username).

Definition daily_entry (username : string) (today : Z) (st : State)
  : option DailyRecord :=
  DATA st !! username ≫= λ ud, daily_completion ud !! today.

(** [pointsAwarded] recorded for the date, if any. *)
Definition recorded_points_awarded (username : string) (today : Z) (st : State)
  : option Z :=
  daily_entry username today st ≫= points_awarded.

(** [checkerPointsAwarded] recorded for the date, 0 when absent. *)
Definition checker_awarded (username : string) (today : Z) (st : State) : Z :=
  default 0 (daily_entry username today st ≫= checker_points_awarded).

(** The task states stored for the date. *)
Definition stored_checker (username : string) (today : Z) (st : State)
  : option (gmap string bool) :=
  daily_entry username today st ≫= checker.

(** A sequence of checker finalisations on one date, one tick assignment per
    press of the button; returns the final state and the completed-task
    counts the page displayed. *)
Fixpoint checker_finalizes (username : string) (today : Z)
    (actions : list (string → bool)) (st : State) : State * list Z :=
  match actions with
  | [] => (st, [])
  | ticked :: actions =>
      let '(st, view) := daily_routine_ai_checker_page username today ticked true st in
      let '(st, counts) := checker_finalizes username today actions st in
      (st, completed_tasks view :: counts)
  end.


(** Routine finalisation is idempotent on the date's [pointsAwarded] and on
    the user's points, whatever is ticked at either press. *)
Definition routine_finalize_idempotent : Prop :=
  ∀ username today m1 e1 m2 e2 st,
    let st1 := (my_routine_page username today m1 e1 true st).1 in
    let st2 := (my_routine_page username today m2 e2 true st1).1 in
    recorded_points_awarded username today st2
    = recorded_points_awarded username today st1 ∧
    user_points username st2 = user_points username st1.

End GameSpec.

(** A user whose last 120 days (counted back from day 1000) are all
    complete. *)
Definition complete_day : DailyRecord :=
  {| morning := Some ∅; evening := Some ∅; is_complete := Some true;
     points_awarded := Some 5; checker := None; checker_points_awarded := None |}.

Definition long_run_user : UserData :=
  {| onboarding := Some example_onboarding; analysis_history := []; points := 600;
     daily_completion :=
       list_to_map ((λ k, (1000 - k, complete_day)) <$> py_range 1 121) |}.

Definition three_day_user : UserData :=
  {| onboarding := Some example_onboarding; analysis_history := []; points := 15;
     daily_completion :=
       list_to_map ((λ k, (1000 - k, complete_day)) <$> py_range 1 4) |}.

(** A registered, onboarded user with one analysis on record and 10 points,
    and the state holding only that user. *)
Definition example_analysis : AnalysisResult :=
  analyze_features "2024-01-02T08:00:00" fallback_features example_lifestyle
    example_onboarding.

Definition analysed_user : UserData :=
  {| onboarding := Some example_onboarding; analysis_history := [example_analysis];
     points := 10; daily_completion := ∅ |}.

Definition analysed_state : State :=
  {| USERS := ∅; DATA := {["asha"%string := analysed_user]};
     users_json := ∅; data_json := {["asha"%string := analysed_user]};
     logged_in_user := Some "asha"%string; page := Some "My Routine"%string |}.

Definition nothing_ticked : nat → bool := λ _, false.
Definition all_ticked : nat → bool := λ _, true.

(** Tick assignments for the checker: the first three morning tasks, then
    only the first. *)
Definition three_tasks : string → bool :=
  λ k, bool_decide (k ∈ ["AM_1"; "AM_2"; "AM_3"]%string).
Definition one_task : string → bool := λ k, bool_decide (k = "AM_1"%string).

Definition example_actions : list (string → bool) := [three_tasks; one_task].


(** The state after that user has finalised day 1000 with every step ticked,
    and the entry it records for the day. *)
Definition complete_finalized_state : State :=
  (my_routine_page "asha" 1000 all_ticked all_ticked true analysed_state).1.

Definition finalized_entry : DailyRecord :=
  default complete_day (GameSpec.daily_entry "asha" 1000 complete_finalized_state).

(** * Properties *)

(** ** Proof automation *)

Ltac lookup_simpl :=
  repeat (cbn [DATA data_json USERS set_DATA save_DATA store_daily sync
               mbind option_bind fmap option_fmap option_map default
               points daily_completion set_daily add_points
               checker checker_points_awarded set_checker
               set_checker_points_awarded completed_tasks checker_outcome
               morning evening is_complete points_awarded
               set_morning set_evening fst snd id];
          rewrite ?lookup_alter_eq, ?lookup_insert_eq).


(** ** Truncation *)

Lemma py_int_truncates (x : Q) : Spec.truncates x (py_int x).
Proof.
  destruct x as [n d]. unfold Spec.truncates, py_int, Qle, Qlt. simpl.
  pose proof (Z.quot_rem' n (Z.pos d)) as E.
  split; intros Hs.
  - pose proof (Z.rem_bound_pos n (Z.pos d)). nia.
  - pose proof (Z.rem_bound_pos_neg n (Z.pos d)). nia.
Qed.

(** ** Scoring engine *)

Lemma clamp_bounds (v lo hi : Z) : lo ≤ hi → lo ≤ Spec.clamp v lo hi ≤ hi.
Proof. unfold Spec.clamp. lia. Qed.

Lemma min_max_clamp (v lo hi : Z) : lo ≤ hi → Z.min hi (Z.max lo v) = Spec.clamp v lo hi.
Proof. unfold Spec.clamp. lia. Qed.

(** The clamps hold for every feature triple and every lifestyle input, in
    range or not. *)
Lemma analyze_features_bounds now f lf ob :
  let r := analyze_features now f lf ob in
  50 ≤ current_score r ≤ 95 ∧ 50 ≤ hydration_score r ≤ 99 ∧
  10 ≤ acne_risk_pct r ≤ 90 ∧ 5 ≤ pigmentation_risk_pct r ≤ 70.
Proof. cbn. lia. Qed.

Lemma pseudo_analyze_image_onboarded now up lf ud ob :
  onboarding ud = Some ob →
  pseudo_analyze_image now up lf ud
  = inr (analyze_features now (image_features_of up) lf ob).
Proof. intros E. unfold pseudo_analyze_image. by rewrite E. Qed.

(** C3: for every lifestyle input in the documented ranges, every upload
    (decodable or not) and every onboarded profile, [pseudo_analyze_image]
    returns a result whose [current_score] is in [50,95], [hydration_score] in
    [50,99], [acne_risk_pct] in [10,90] and [pigmentation_risk_pct] in [5,70]. *)
Theorem pseudo_analyze_image_ranges now up lf ud ob :
  Spec.valid_lifestyle lf →
  onboarding ud = Some ob →
  ∃ r, pseudo_analyze_image now up lf ud = inr r ∧
       50 ≤ current_score r ≤ 95 ∧ 50 ≤ hydration_score r ≤ 99 ∧
       10 ≤ acne_risk_pct r ≤ 90 ∧ 5 ≤ pigmentation_risk_pct r ≤ 70.
Proof.
  intros _ E. eexists. split.
  - by apply pseudo_analyze_image_onboarded.
  - apply analyze_features_bounds.
Qed.

Lemma pseudo_analyze_image_ranges_witness :
  ∃ r, pseudo_analyze_image "2024-01-02T08:00:00" (Decoded 2 2 800 600 500)
         example_lifestyle example_user = inr r ∧
       50 ≤ current_score r ≤ 95 ∧ 50 ≤ hydration_score r ≤ 99 ∧
       10 ≤ acne_risk_pct r ≤ 90 ∧ 5 ≤ pigmentation_risk_pct r ≤ 70.
Proof.
  apply (pseudo_analyze_image_ranges _ _ _ _ example_onboarding).
  - unfold Spec.valid_lifestyle, Qle; simpl; lia.
  - reflexivity.
Defined.

(** C5 (as stated) fails: on the undecodable upload with the default sliders
    the hydration formula is 910/17 = 53.53, whose nearest integer is 54, and
    the result carries 53. *)
Lemma hydration_not_rounded_to_nearest :
  ∃ r, pseudo_analyze_image "2024-01-02T08:00:00" Undecodable
         example_lifestyle example_user = inr r ∧
       hydration_score r = 53 ∧
       (Spec.hydration_formula (image_features_of Undecodable) example_lifestyle
        == 910 # 17)%Q ∧
       ¬ Spec.hydration_rounded_to_nearest (image_features_of Undecodable)
           example_lifestyle r.
Proof.
  eexists. split; [reflexivity |]. split; [reflexivity |]. split; [reflexivity |].
  intros (v & Hn & Hv). revert Hv. unfold Spec.nearest in Hn.
  apply Qabs_Qle_condition in Hn. destruct Hn as [Hl Hu].
  assert (Hv : v = 54).
  { revert Hl Hu. unfold Qle. cbn. lia. }
  subst v. vm_compute. discriminate.
Qed.

(** C6: with the fallback features and the default sliders (7 h, 2.0 l,
    stress 5, diet 3) the raw score is 3299/85 = 38.81, the lifestyle impact
    is 0.49, the base image score 4/17 = 0.2353, and the returned
    [current_score] is the floor of the clamp, 50. *)
Theorem example_scenario_floor_clamp now ud ob :
  onboarding ud = Some ob →
  ∃ r, pseudo_analyze_image now Undecodable example_lifestyle ud = inr r ∧
       image_features_of Undecodable
       = {| avg_brightness := 150; contrast_heuristic := 1.0; redness_factor := 1.0 |} ∧
       (base_image_score (image_features_of Undecodable) == 4 # 17)%Q ∧
       (lifestyle_impact_score example_lifestyle == 0.49)%Q ∧
       (score_raw (image_features_of Undecodable) example_lifestyle == 3299 # 85)%Q ∧
       (38.8 < score_raw (image_features_of Undecodable) example_lifestyle < 38.9)%Q ∧
       py_int (score_raw (image_features_of Undecodable) example_lifestyle) = 38 ∧
       current_score r = 50.
Proof.
  intros E. rewrite (pseudo_analyze_image_onboarded _ _ _ _ _ E).
  eexists. split; [reflexivity |].
  repeat match goal with |- _ ∧ _ => split end; reflexivity.
Qed.

Lemma example_scenario_floor_clamp_witness :
  ∃ r, pseudo_analyze_image "2024-01-02T08:00:00" Undecodable example_lifestyle
         example_user = inr r ∧
       image_features_of Undecodable
       = {| avg_brightness := 150; contrast_heuristic := 1.0; redness_factor := 1.0 |} ∧
       (base_image_score (image_features_of Undecodable) == 4 # 17)%Q ∧
       (lifestyle_impact_score example_lifestyle == 0.49)%Q ∧
       (score_raw (image_features_of Undecodable) example_lifestyle == 3299 # 85)%Q ∧
       (38.8 < score_raw (image_features_of Undecodable) example_lifestyle < 38.9)%Q ∧
       py_int (score_raw (image_features_of Undecodable) example_lifestyle) = 38 ∧
       current_score r = 50.
Proof.
  apply (example_scenario_floor_clamp _ _ example_onboarding). reflexivity.
Defined.

(** ** Recommendation engine *)

(** C7: the morning routine is the fixed three steps; the evening routine is
    the fixed three steps with the treat step (index 1) replaced by the BHA
    step exactly when 'Acne' is a concern or [acne_risk_pct > 50], followed by
    the retinoid step exactly when 'Wrinkles' is a concern. Nothing else
    enters the step lists. *)
Theorem routine_from_concerns now up lf ud ob :
  onboarding ud = Some ob →
  ∃ r, pseudo_analyze_image now up lf ud = inr r ∧
       routine_morning r
       = ["Cleanse: Gentle Hydrating Cleanser"; "Treat: Vitamin C Serum";
          "Protect: SPF 30+ Sunscreen"]%string ∧
       routine_evening r
       = ["Cleanse: Double Cleanse (Oil + Foam)"%string;
          if str_in "Acne" (primary_concerns ob) || (50 <? acne_risk_pct r)
          then "Treat: Salicylic Acid (BHA) Serum"%string
          else "Treat: Niacinamide Serum"%string;
          "Moisturize: Barrier Repair Cream"%string]
         ++ (if str_in "Wrinkles" (primary_concerns ob)
             then ["Treat: Retinoid Cream (3x/week)"%string] else []).
Proof.
  intros E. rewrite (pseudo_analyze_image_onboarded _ _ _ _ _ E).
  eexists. split; [reflexivity |]. split; [reflexivity |].
  unfold analyze_features. cbn [routine_evening acne_risk_pct].
  destruct (str_in "Acne" (primary_concerns ob) || _),
           (str_in "Wrinkles" (primary_concerns ob)); reflexivity.
Qed.

Lemma routine_from_concerns_witness :
  ∃ r, pseudo_analyze_image "2024-01-02T08:00:00" Undecodable example_lifestyle
         example_wrinkles_user = inr r ∧
       routine_morning r
       = ["Cleanse: Gentle Hydrating Cleanser"; "Treat: Vitamin C Serum";
          "Protect: SPF 30+ Sunscreen"]%string ∧
       routine_evening r
       = ["Cleanse: Double Cleanse (Oil + Foam)"%string;
          if str_in "Acne" (primary_concerns example_wrinkles_onboarding)
             || (50 <? acne_risk_pct r)
          then "Treat: Salicylic Acid (BHA) Serum"%string
          else "Treat: Niacinamide Serum"%string;
          "Moisturize: Barrier Repair Cream"%string]
         ++ (if str_in "Wrinkles" (primary_concerns example_wrinkles_onboarding)
             then ["Treat: Retinoid Cream (3x/week)"%string] else []).
Proof.
  apply (routine_from_concerns _ _ _ _ example_wrinkles_onboarding). reflexivity.
Defined.

(** ** Image fallback *)

(** C9: when the feature extraction raises, [pseudo_analyze_image] does not:
    it returns the analysis of the fixed features 150 (that is 150/255 once
    normalised), 1.0 and 1.0 with the given lifestyle inputs. *)
Theorem image_error_falls_back now up lf ud ob e :
  extract_features up = inl e →
  onboarding ud = Some ob →
  pseudo_analyze_image now up lf ud
  = inr (analyze_features now
           {| avg_brightness := 150; contrast_heuristic := 1.0;
              redness_factor := 1.0 |} lf ob)
  ∧ (Spec.brightness (image_features_of up) == 150 / 255)%Q
  ∧ contrast_heuristic (image_features_of up) = 1.0%Q
  ∧ redness_factor (image_features_of up) = 1.0%Q.
Proof.
  intros He E. rewrite (pseudo_analyze_image_onboarded _ _ _ _ _ E).
  unfold image_features_of. rewrite He. repeat split; reflexivity.
Qed.

Lemma image_error_falls_back_witness :
  pseudo_analyze_image "2024-01-02T08:00:00" (Decoded 0 480 0 0 0)
    example_lifestyle example_user
  = inr (analyze_features "2024-01-02T08:00:00"
           {| avg_brightness := 150; contrast_heuristic := 1.0;
              redness_factor := 1.0 |} example_lifestyle example_onboarding)
  ∧ (Spec.brightness (image_features_of (Decoded 0 480 0 0 0)) == 150 / 255)%Q
  ∧ contrast_heuristic (image_features_of (Decoded 0 480 0 0 0)) = 1.0%Q
  ∧ redness_factor (image_features_of (Decoded 0 480 0 0 0)) = 1.0%Q.
Proof.
  apply (image_error_falls_back _ _ _ _ _ ZeroDivisionError); reflexivity.
Defined.

(** ** Credential manager *)

Lemma check_password_hash `{Sha256} (pw uuid_hex : string) :
  let '(hashed, salt) := hash_password pw None uuid_hex in
  check_password hashed pw salt = true.
Proof. unfold hash_password, check_password. by rewrite bool_decide_eq_true. Qed.

(** C8: registering a username that already has a credential record reports
    [UserExists] and returns the state unchanged; registering a fresh username
    with non-empty credentials stores the digest of password and salt, dumps
    [USERS] to its file, and a login with the same password then succeeds. *)
Theorem register_duplicate_or_fresh `{Sha256} (st : State) (u pw uuid_hex : string) :
  (∀ cred, USERS st !! u = Some cred → register u pw uuid_hex st = (st, UserExists)) ∧
  (USERS st !! u = None → u ≠ ""%string → pw ≠ ""%string →
   ∃ st', register u pw uuid_hex st = (st', RegSuccess) ∧
          USERS st' = <[u := {| password := sha256_hexdigest (pw +:+ uuid_hex);
                               salt := uuid_hex |}]> (USERS st) ∧
          users_json st' = USERS st' ∧
          is_Some (DATA st' !! u) ∧
          login u pw st'
          = (set_session (Some u) (Some "Dashboard"%string) st', LoginSuccess)).
Proof.
  split.
  - intros cred E. unfold register. by rewrite E.
  - intros E Hu Hp. unfold register. rewrite E.
    unfold py_not. rewrite !bool_decide_eq_false_2 by done. cbn [orb].
    unfold hash_password.
    set (c := {| password := _; salt := _ |}).
    set (st1 := save_USERS _).
    destruct (get_user_data u st1) as [st' ud] eqn:G.
    assert (HU : USERS st' = <[u := c]> (USERS st)).
    { unfold get_user_data in G. destruct (DATA st1 !! u); by inversion G. }
    assert (HJ : users_json st' = <[u := c]> (USERS st)).
    { unfold get_user_data in G. destruct (DATA st1 !! u); by inversion G. }
    assert (HD : is_Some (DATA st' !! u)).
    { unfold get_user_data in G. destruct (DATA st1 !! u) eqn:D; inversion G; subst.
      - by rewrite D.
      - cbn. rewrite lookup_insert_eq. eauto. }
    exists st'. repeat split; try done.
    + by rewrite HJ, HU.
    + unfold login. rewrite HU, lookup_insert_eq. subst c. cbn [password salt].
      unfold check_password. by rewrite bool_decide_eq_true_2.
Qed.

Lemma register_duplicate_or_fresh_witness :
  let st1 := (@register example_digest "asha" "s3cret" "0f1e2d" initial_state).1 in
  (@register example_digest "asha" "other" "aa55" st1 = (st1, UserExists)) ∧
  (∃ st', @register example_digest "asha" "s3cret" "0f1e2d" initial_state
          = (st', RegSuccess) ∧
          USERS st' = <["asha"%string :=
                          {| password := @sha256_hexdigest example_digest
                                           ("s3cret" +:+ "0f1e2d");
                             salt := "0f1e2d" |}]> (USERS initial_state) ∧
          users_json st' = USERS st' ∧
          is_Some (DATA st' !! "asha"%string) ∧
          @login example_digest "asha" "s3cret" st'
          = (set_session (Some "asha"%string) (Some "Dashboard"%string) st',
             LoginSuccess)).
Proof.
  intros st1. split.
  - apply (proj1 (@register_duplicate_or_fresh example_digest st1
                    "asha" "other" "aa55")
             {| password := "sha256:s3cret0f1e2d"; salt := "0f1e2d" |}).
    vm_compute. reflexivity.
  - apply (proj2 (@register_duplicate_or_fresh example_digest initial_state
                    "asha" "s3cret" "0f1e2d")); [reflexivity | discriminate | discriminate].
Defined.

(** C10: a registration with an empty username or an empty password is
    refused and returns the state unchanged; for a username that is not taken
    the refusal is the empty-field error. *)
Theorem register_rejects_empty `{Sha256} (st : State) (u pw uuid_hex : string) :
  u = ""%string ∨ pw = ""%string →
  ∃ out, register u pw uuid_hex st = (st, out) ∧ out ≠ RegSuccess ∧
         (USERS st !! u = None → out = EmptyField).
Proof.
  intros Hempty. unfold register. destruct (USERS st !! u) eqn:E.
  - exists UserExists. done.
  - assert (py_not u || py_not pw = true) as ->.
    { unfold py_not. destruct Hempty as [-> | ->]; [done |].
      rewrite (bool_decide_eq_true_2 (""%string = ""%string)) by done.
      apply orb_true_r. }
    exists EmptyField. done.
Qed.

Lemma register_rejects_empty_witness :
  ∃ out, @register example_digest "asha" "" "0f1e2d" initial_state
         = (initial_state, out) ∧ out ≠ RegSuccess ∧
         (USERS initial_state !! "asha"%string = None → out = EmptyField).
Proof.
  apply (@register_rejects_empty example_digest). right. reflexivity.
Defined.

(** ** Streak *)

Section Streak.
Variable dc : gmap Z DailyRecord.
Variable today : Z.

(** The loop counts the complete days met before the first incomplete one,
    or all of them when there is none. *)
Lemma streak_loop_spec (n : nat) : ∀ lo c,
  let s := streak_loop dc today (seqZ lo (Z.of_nat n)) c in
  c ≤ s ≤ c + Z.of_nat n ∧
  (∀ j, 0 ≤ j < s - c → day_complete dc (today - (lo + j)) = true) ∧
  (s - c < Z.of_nat n → day_complete dc (today - (lo + (s - c))) = false).
Proof.
  induction n as [| n IH]; intros lo c.
  - change (Z.of_nat 0) with 0. rewrite seqZ_nil by lia. cbn [streak_loop]. cbv zeta.
    repeat split; intros; lia.
  - rewrite seqZ_cons by lia. cbn [streak_loop].
    replace (Z.pred (Z.of_nat (S n))) with (Z.of_nat n) by lia.
    destruct (day_complete dc (today - lo)) eqn:D.
    + specialize (IH (Z.succ lo) (c + 1)). cbv zeta in IH.
      set (s := streak_loop _ _ _ _) in *. destruct IH as (Hb & Hc & Hg).
      repeat split; try lia.
      * intros j Hj. destruct (decide (j = 0)) as [-> | Hne].
        -- by rewrite Z.add_0_r.
        -- specialize (Hc (j - 1)). rewrite <- Hc by lia. f_equal. lia.
      * intros Hlt. rewrite <- Hg by lia. f_equal. lia.
    + cbv zeta. repeat split; try lia.
      intros _. rewrite Z.sub_diag, Z.add_0_r. exact D.
Qed.

End Streak.

Lemma streak_count_spec (ud : UserData) (today : Z) :
  let s := streak_count ud today in
  0 ≤ s ≤ 99 ∧
  (∀ k, 1 ≤ k ≤ s → day_complete (daily_completion ud) (today - k) = true) ∧
  (s < 99 → day_complete (daily_completion ud) (today - (s + 1)) = false).
Proof.
  unfold streak_count, py_range.
  pose proof (streak_loop_spec (daily_completion ud) today 99 1 0) as H.
  cbv zeta in H. change (Z.of_nat 99) with (100 - 1) in H.
  destruct (day_complete (daily_completion ud) (today - 1)) eqn:D.
  - set (s := streak_loop _ _ _ _) in *. destruct H as (Hb & Hc & Hg).
    cbv zeta. repeat split; try lia.
    + intros k Hk. specialize (Hc (k - 1)). rewrite <- Hc by lia. f_equal. lia.
    + intros Hlt. rewrite <- Hg by lia. f_equal. lia.
  - cbv zeta. repeat split; try lia. intros _. exact D.
Qed.

(** C4 (as amended): with no daily-completion history the streak is 0; for
    1 ≤ N ≤ 99, when the N days ending yesterday are complete and the day
    before them is not, the streak computed today is N; an incomplete day
    k days back stops the walk, so the streak stays below k; the walk is
    bounded, so the streak never exceeds 100. *)
Theorem streak_count_run (ud : UserData) (today : Z) :
  (daily_completion ud = ∅ → streak_count ud today = 0) ∧
  (∀ N, 1 ≤ N ≤ 99 → GameSpec.run_ending_yesterday ud today N →
        streak_count ud today = N) ∧
  (∀ k, 1 ≤ k → day_complete (daily_completion ud) (today - k) = false →
        streak_count ud today < k) ∧
  0 ≤ streak_count ud today ≤ 100.
Proof.
  pose proof (streak_count_spec ud today) as H. cbv zeta in H.
  destruct H as (Hb & Hc & Hg). split; [| split; [| split]].
  - intros E. unfold streak_count, day_complete. rewrite E, lookup_empty. done.
  - intros N HN [Hrun Hgap].
    destruct (Z.lt_trichotomy (streak_count ud today) N) as [Hlt | [-> | Hgt]];
      [| done |].
    + rewrite Hrun in Hg by lia. discriminate Hg. lia.
    + rewrite Hc in Hgap by lia. discriminate.
  - intros k Hk Hk'. destruct (Z.lt_ge_cases (streak_count ud today) k); [done |].
    rewrite Hc in Hk' by lia. discriminate.
  - lia.
Qed.

Lemma range_check (P : Z → bool) (lo hi : Z) :
  forallb P (py_range lo hi) = true → ∀ k, lo ≤ k < hi → P k = true.
Proof.
  rewrite forallb_forall. intros H k Hk. apply H, list_elem_of_In.
  unfold py_range. apply elem_of_seqZ. lia.
Qed.

Lemma streak_count_run_witness :
  streak_count three_day_user 1000 = 3 ∧
  streak_count example_user 1000 = 0 ∧
  streak_count three_day_user 1000 < 4 ∧
  0 ≤ streak_count three_day_user 1000 ≤ 100.
Proof.
  split; [| split; [| split]].
  - apply (proj1 (proj2 (streak_count_run three_day_user 1000)) 3); [lia |].
    split; [| by vm_compute]. intros k Hk.
    apply (range_check
             (λ k, day_complete (daily_completion three_day_user) (1000 - k)) 1 4);
      [by vm_compute | lia].
  - apply (proj1 (streak_count_run example_user 1000)). reflexivity.
  - apply (proj1 (proj2 (proj2 (streak_count_run three_day_user 1000))) 4); [lia |].
    by vm_compute.
  - apply (proj2 (proj2 (proj2 (streak_count_run three_day_user 1000)))).
Defined.

(** C4 (as stated) fails at N = 120: the 120 days ending yesterday are
    complete, the day before them is not, and the streak reads 99. *)
Lemma streak_long_run_is_capped :
  GameSpec.run_ending_yesterday long_run_user 1000 120 ∧
  streak_count long_run_user 1000 = 99 ∧
  streak_count long_run_user 1000 ≠ 120.
Proof.
  split; [| split].
  - split; [| by vm_compute]. intros k Hk.
    apply (range_check
             (λ k, day_complete (daily_completion long_run_user) (1000 - k)) 1 121);
      [by vm_compute | lia].
  - by vm_compute.
  - by vm_compute.
Qed.

(** ** Record store *)


Lemma get_user_data_known (u : string) (st : State) (ud : UserData) :
  DATA st !! u = Some ud → get_user_data u st = (st, ud).
Proof. intros E. unfold get_user_data. by rewrite E. Qed.




Lemma store_daily_lookup (u : string) (today : Z) (d : DailyRecord) (st : State)
    (ud : UserData) :
  DATA st !! u = Some ud →
  DATA (store_daily u today d st) !! u = Some (set_daily today d ud).
Proof. intros E. cbn. by rewrite lookup_alter_eq, E. Qed.

Lemma update_user_points_known (u : string) (n : Z) (st : State) (ud : UserData) :
  DATA st !! u = Some ud →
  ∃ st', update_user_points u n st = inr st' ∧
         DATA st' = <[u := add_points n ud]> (DATA st) ∧
         data_json st' = DATA st' ∧ USERS st' = USERS st.
Proof. intros E. unfold update_user_points. rewrite E. eexists. by cbn. Qed.

(** ** Checker finalisation *)











(** The numbers of that run: three tasks, then one; 15 points in all, and
    the award stays at 15 while the stored task state drops to one task. *)
Example checker_run_example :
  let '(st', counts) :=
    GameSpec.checker_finalizes "asha" 1000 example_actions initial_state in
  counts = [3; 1] ∧ GameSpec.user_points "asha" st' = 15 ∧
  GameSpec.checker_awarded "asha" 1000 st' = 15 ∧
  (sum_values <$> GameSpec.stored_checker "asha" 1000 st') = Some 1.
Proof. vm_compute. done. Qed.

(** ** Routine finalisation *)

(** C1 (as amended): once the date is recorded complete, pressing finalize
    again awards nothing, whatever is ticked: the user's points, the date's
    [points_awarded] and [is_complete] flag and the saved file are unchanged. *)
Theorem routine_refinalize_is_noop (u : string) (today : Z)
    (mt et : nat → bool) (st : State) (d : DailyRecord) :
  GameSpec.daily_entry u today st = Some d →
  is_complete d = Some true →
  ∃ st' out,
    my_routine_page u today mt et true st = (st', out) ∧
    (out = AlreadyFinalized ∨ out = NoAnalysis ∨ ∃ e, out = Raised e) ∧
    GameSpec.user_points u st' = GameSpec.user_points u st ∧
    GameSpec.recorded_points_awarded u today st' = points_awarded d ∧
    GameSpec.daily_entry u today st' ≫= is_complete = Some true ∧
    data_json st' = data_json st.
Proof.
  unfold GameSpec.recorded_points_awarded, GameSpec.daily_entry, GameSpec.user_points.
  intros Hd Hc. destruct (DATA st !! u) as [ud |] eqn:E; [| discriminate].
  cbn in Hd. unfold my_routine_page. rewrite (get_user_data_known _ _ _ E).
  destruct (last (analysis_history ud)) as [la |].
  2:{ eexists _, _. split; [reflexivity |]. rewrite E. cbn. rewrite Hd. cbn.
      repeat split; try done. by right; left. }
  rewrite Hd. cbn [default mbind option_bind]. rewrite Hc. cbn [default negb].
  assert (Hb : bool_decide (is_Some (Some d)) = true) by done. rewrite Hb. clear Hb.
  destruct d as [m e ic pa ch cpa]. cbn in Hc. subst ic.
  destruct (Z.of_nat (length (routine_morning la)) =? 0).
  { eexists _, _. split; [reflexivity |]. rewrite E. cbn. rewrite Hd. cbn.
    repeat split; try done. right; right; eauto. }
  destruct m as [m |]; lookup_simpl.
  2:{ eexists _, _. split; [reflexivity |]. rewrite E. cbn. rewrite Hd. cbn.
      repeat split; try done. right; right; eauto. }
  destruct (checkbox_loop (routine_morning la) mt m) as [m' mc].
  lookup_simpl.
  destruct (Z.of_nat (length (routine_evening la)) =? 0).
  { eexists _, _. split; [reflexivity |]. lookup_simpl. rewrite E. lookup_simpl.
    repeat split; try done. right; right; eauto. }
  destruct e as [e |]; lookup_simpl.
  2:{ eexists _, _. split; [reflexivity |]. lookup_simpl. rewrite E. lookup_simpl.
      repeat split; try done. right; right; eauto. }
  destruct (checkbox_loop (routine_evening la) et e) as [e' ec].
  eexists _, _. split; [reflexivity |]. lookup_simpl. rewrite E. lookup_simpl.
  repeat split; try done. by left.
Qed.

Lemma routine_refinalize_is_noop_witness :
  ∃ st' out,
    my_routine_page "asha" 1000 nothing_ticked nothing_ticked true
      complete_finalized_state = (st', out) ∧
    (out = AlreadyFinalized ∨ out = NoAnalysis ∨ ∃ e, out = Raised e) ∧
    GameSpec.user_points "asha" st'
    = GameSpec.user_points "asha" complete_finalized_state ∧
    GameSpec.recorded_points_awarded "asha" 1000 st' = points_awarded finalized_entry ∧
    GameSpec.daily_entry "asha" 1000 st' ≫= is_complete = Some true ∧
    data_json st' = data_json complete_finalized_state.
Proof.
  apply (routine_refinalize_is_noop "asha" 1000 nothing_ticked nothing_ticked
           complete_finalized_state finalized_entry).
  - vm_compute. reflexivity.
  - vm_compute. reflexivity.
Defined.

(** The first, complete finalisation of that run awards the 5 points. *)
Example routine_complete_finalize_example :
  (my_routine_page "asha" 1000 all_ticked all_ticked true analysed_state).2 = Awarded 5 ∧
  GameSpec.user_points "asha" complete_finalized_state = 15 ∧
  points_awarded finalized_entry = Some 5 ∧
  is_complete finalized_entry = Some true.
Proof. vm_compute. done. Qed.

(** C1 (as stated) fails: a finalize with nothing ticked records the date
    with 0 points awarded, and a second finalize with every step ticked then
    records 5 and raises the user's points from 10 to 15. *)
Lemma routine_refinalize_after_incomplete_awards :
  let r1 := my_routine_page "asha" 1000 nothing_ticked nothing_ticked true
              analysed_state in
  let r2 := my_routine_page "asha" 1000 all_ticked all_ticked true r1.1 in
  (r1.2 = MoreWork ∧
   GameSpec.recorded_points_awarded "asha" 1000 r1.1 = Some 0 ∧
   GameSpec.user_points "asha" r1.1 = 10 ∧
   r2.2 = Awarded 5 ∧
   GameSpec.recorded_points_awarded "asha" 1000 r2.1 = Some 5 ∧
   GameSpec.user_points "asha" r2.1 = 15) ∧
  ¬ GameSpec.routine_finalize_idempotent.
Proof.
  cbv zeta. split.
  - vm_compute. repeat split; reflexivity.
  - intros H.
    specialize (H "asha"%string 1000 nothing_ticked nothing_ticked all_ticked all_ticked
                  analysed_state).
    cbv zeta in H. destruct H as [_ H]. vm_compute in H. discriminate H.
Qed.
(** Routine finalisation rebuilds the date's entry without the checker keys:
    after an incomplete routine finalize and a checker award of 15, a complete
    routine finalize leaves no [checker_points_awarded], and the same three
    tasks are awarded again. *)
Example routine_finalize_drops_checker_award :
  let st0 := (my_routine_page "asha" 1000 nothing_ticked nothing_ticked true
                analysed_state).1 in
  let st1 := (daily_routine_ai_checker_page "asha" 1000 three_tasks true st0).1 in
  let st2 := (my_routine_page "asha" 1000 all_ticked all_ticked true st1).1 in
  let r3 := daily_routine_ai_checker_page "asha" 1000 three_tasks true st2 in
  GameSpec.checker_awarded "asha" 1000 st1 = 15 ∧
  GameSpec.checker_awarded "asha" 1000 st2 = 0 ∧
  checker_outcome r3.2 = CheckerAwarded 15 ∧
  GameSpec.user_points "asha" r3.1 = 10 + 15 + 5 + 15.
Proof. vm_compute. repeat split; reflexivity. Qed.

(** An entry created by the checker page has no ['morning'] key: the routine
    page then raises on that date. *)
Example routine_page_after_checker_raises :
  let st0 := (daily_routine_ai_checker_page "asha" 1000 three_tasks true
                analysed_state).1 in
  (my_routine_page "asha" 1000 all_ticked all_ticked true st0).2 = Raised KeyError.
Proof. vm_compute. reflexivity. Qed.

(** ** Integer fields under binary64 evaluation *)

Lemma truncates_b_sound (x : Q) (v : Z) :
  Check64.truncates_b x v = true → Spec.truncates x v.
Proof.
  unfold Check64.truncates_b, Spec.truncates, Qlt_bool. intros H.
  apply andb_true_iff in H as [Hp Hn]. split; intros Hx.
  - apply Qle_bool_iff in Hx. rewrite Hx in Hp.
    apply andb_true_iff in Hp as [H1 H2]. apply Qle_bool_iff in H1.
    apply negb_true_iff in H2. split; [exact H1 |].
    apply Qnot_le_lt. intros Hc. apply Qle_bool_iff in Hc. congruence.
  - apply Qle_bool_iff in Hx. rewrite Hx in Hn.
    apply andb_true_iff in Hn as [H1 H2]. apply Qle_bool_iff in H2.
    apply negb_true_iff in H1. split; [| exact H2].
    apply Qnot_le_lt. intros Hc. apply Qle_bool_iff in Hc. congruence.
Qed.

Lemma Qlt_bool_sound (x y : Q) : Qlt_bool x y = true → (x < y)%Q.
Proof.
  unfold Qlt_bool. intros H. apply negb_true_iff in H.
  apply Qnot_le_lt. intros Hc. apply Qle_bool_iff in Hc. congruence.
Qed.

Lemma truncates_or_short_b_sound (x : Q) (v : Z) :
  Check64.truncates_or_short_b x v = true → Spec.truncates_or_short x v.
Proof.
  unfold Check64.truncates_or_short_b, Spec.truncates_or_short. intros H.
  apply orb_true_iff in H as [H | H]; [apply orb_true_iff in H as [H | H] |].
  - left. by apply truncates_b_sound.
  - right; left. apply andb_true_iff in H as [H1 H2].
    split; [by apply Qlt_bool_sound | by apply Qeq_bool_iff].
  - right; right. apply andb_true_iff in H as [H1 H2].
    split; [by apply Qlt_bool_sound | by apply Qeq_bool_iff].
Qed.

(** [int] of a float is the truncation toward zero of the number the float
    stands for. *)
Lemma to_int_truncates_value (x : float) (v : Z) :
  F64.to_int x = Some v → Spec.truncates (F64.value x) v.
Proof.
  unfold F64.to_int, F64.value. destruct (Prim2SF x) as [s | s | | s m e];
    try discriminate.
  - intros [= <-]. unfold Spec.truncates, Qle, Qlt. cbn. lia.
  - intros [= <-]. destruct (Z.leb_spec 0 e) as [He | He].
    + assert (0 < 2 ^ e) by (apply Z.pow_pos_nonneg; lia).
      destruct s; unfold Spec.truncates, Qle, Qlt; cbn; nia.
    + assert (Hp : 0 < 2 ^ (- e)) by (apply Z.pow_pos_nonneg; lia).
      pose proof (Z.div_mod (Z.pos m) (2 ^ (- e))) as Hdm.
      pose proof (Z.mod_pos_bound (Z.pos m) (2 ^ (- e)) Hp) as Hmb.
      destruct s; unfold Spec.truncates, Qle, Qlt; cbn;
        rewrite ?Z2Pos.id by lia; nia.
Qed.

(** Whatever the inputs, the clamps and the projections are taken from the
    truncated values as the source writes them. *)
Lemma scores_clamps (f : F64.Features) (lf : F64.Lifestyle) (oily : bool)
    (sc : F64.Scores) :
  F64.scores f lf oily = Some sc →
  F64.current_score sc = Spec.clamp (F64.raw_score sc) 50 95 ∧
  F64.hydration_score sc = Spec.clamp (F64.raw_hydration sc) 50 99 ∧
  F64.acne_risk_pct sc = Spec.clamp (F64.raw_acne sc) 10 90 ∧
  F64.pigmentation_risk_pct sc = Spec.clamp (F64.raw_pigmentation sc) 5 70 ∧
  F64.proj_7 sc
  = Z.min 100 (F64.current_score sc + Z.max 0 (F64.future_delta sc `div` 3)) ∧
  F64.proj_30 sc = Z.min 100 (F64.current_score sc + Z.max 0 (F64.future_delta sc)) ∧
  F64.proj_90 sc
  = Z.min 100 (F64.current_score sc + Z.max 0 (F64.future_delta sc * 2)).
Proof.
  unfold F64.scores. intros H.
  repeat match type of H with
         | context [F64.to_int ?e] =>
             destruct (F64.to_int e); cbn [mbind option_bind] in H;
             [| discriminate H]
         end.
  injection H as <-. cbn [F64.current_score F64.raw_score F64.hydration_score
    F64.raw_hydration F64.acne_risk_pct F64.raw_acne F64.pigmentation_risk_pct
    F64.raw_pigmentation F64.proj_7 F64.proj_30 F64.proj_90 F64.future_delta].
  unfold Spec.clamp. repeat split; lia.
Qed.

Lemma all_sliders_sound (P : Z → Z → Z → Z → bool) :
  Check64.all_sliders P = true →
  ∀ s k st d, 4 ≤ s ≤ 12 → 1 ≤ k ≤ 8 → 1 ≤ st ≤ 10 → 1 ≤ d ≤ 5 → P s k st d = true.
Proof.
  unfold Check64.all_sliders. intros H s k st d Hs Hk Hst Hd.
  apply (range_check _ 4 13) with (k := s) in H; [| lia].
  apply (range_check _ 1 9) with (k := k) in H; [| lia].
  apply (range_check _ 1 11) with (k := st) in H; [| lia].
  apply (range_check _ 1 6) with (k := d) in H; [| lia]. exact H.
Qed.

Lemma sliders_checked (oily : bool) :
  Check64.all_sliders (λ s k st d, Check64.fields_b s k st d oily) = true.
Proof. destruct oily; vm_compute; reflexivity. Qed.

Lemma acneRisk_formula_oily (cs : Z) (skin : string) (lf : LifestyleFactors) :
  Spec.acneRisk_formula cs skin lf
  = Spec.acneRisk_formula cs
      (Check64.oily_name (str_in skin ["Oily"; "Combination"]%string)) lf.
Proof.
  unfold Spec.acneRisk_formula, Spec.oilyBonus, Check64.oily_name.
  by destruct (str_in skin _).
Qed.

(** C5 (as amended): on the image-fallback features and every slider
    position the scoring returns, and each integer field is Python's [int] of
    the binary64 value of its formula, that is a truncation toward zero and
    never a rounding to nearest, clamped after the truncation. Against the
    real-valued formulas: [current_score] before its clamp, [hydration_score],
    [acne_risk_pct] and [pigmentation_risk_pct] are the truncations of their
    formulas; [future_delta], [sleep_impact_pct] and [stress_impact_pct] are
    the truncation of theirs or, where the real value is a non-zero integer
    that the float evaluation falls just short of, the next integer toward
    zero. The projections add [max 0] of [future_delta // 3], [future_delta]
    and [2 * future_delta] to [current_score], capped at 100. *)
Theorem integer_fields_truncate_binary64 (sleep k stress diet : Z) (skin : string) :
  4 ≤ sleep ≤ 12 → 1 ≤ k ≤ 8 → 1 ≤ stress ≤ 10 → 1 ≤ diet ≤ 5 →
  ∃ sc,
    F64.scores F64.fallback_features (F64.sliders sleep k stress diet)
      (str_in skin ["Oily"; "Combination"]%string) = Some sc ∧
    Spec.binary64_fields fallback_features
      (Spec.slider_input sleep k stress diet) skin sc.
Proof.
  intros Hs Hk Hst Hd.
  pose proof (all_sliders_sound _
    (sliders_checked (str_in skin ["Oily"; "Combination"]%string))
    sleep k stress diet Hs Hk Hst Hd) as H.
  unfold Check64.fields_b in H.
  destruct (F64.scores _ _ _) as [sc |] eqn:E; [| discriminate H].
  exists sc. split; [reflexivity |].
  destruct (scores_clamps _ _ _ _ E) as (C1 & C2 & C3 & C4 & P7 & P30 & P90).
  cbv zeta in H. do 6 (apply andb_true_iff in H as [H ?]).
  unfold Spec.binary64_fields. rewrite acneRisk_formula_oily.
  repeat match goal with |- _ ∧ _ => split end;
    try assumption;
    first [ by apply truncates_b_sound | by apply truncates_or_short_b_sound ].
Qed.

Lemma integer_fields_truncate_binary64_witness :
  ∃ sc,
    F64.scores F64.fallback_features (F64.sliders 9 4 5 3)
      (str_in "Normal" ["Oily"; "Combination"]%string) = Some sc ∧
    Spec.binary64_fields fallback_features (Spec.slider_input 9 4 5 3) "Normal" sc.
Proof.
  apply (integer_fields_truncate_binary64 9 4 5 3 "Normal"); lia.
Defined.

(** Where the two differ: nine hours of sleep make the real-valued sleep
    impact exactly 20, the binary64 value is 19.999999999999996, and the field
    is 19; the hydration field at the default sliders is 53 under either
    evaluation. *)
Example sleep_impact_one_short :
  (Spec.sleepImpact_formula (Spec.slider_input 9 4 5 3) == 20)%Q ∧
  F64.sleep_impact_pct <$> F64.scores F64.fallback_features (F64.sliders 9 4 5 3) false
  = Some 19 ∧
  F64.hydration_score <$> F64.scores F64.fallback_features (F64.sliders 7 4 5 3) false
  = Some 53.
Proof. split; [reflexivity |]. split; vm_compute; reflexivity. Qed.
